(** * Saksoft HR Agent relay: a shallow embedding of [main.py]

    The program is a FastAPI application with one authenticated endpoint,
    [POST /chat], that forwards a chat message to an external agent API and
    relays the reply, plus a dormant streaming generator.  This file embeds
    [verify_token], [chat_with_agent] and [stream_response] together with the
    part of the framework that feeds them (bearer extraction, body
    deserialisation), and proves the properties of the forwarding contract.

    Conventions.
    - Python values coming from or going to JSON are [PyValue]; a [dict] is
      a [gmap string PyValue].
    - A function that may raise returns [Exception + A] ([inl] = raised).
    - Code that talks to the agent API runs in the monad [IO], which threads
      the list of upstream calls issued so far, so that "the upstream call is
      never issued" and "no retry" are statements about that list.
    - What lives outside the program (the process environment, the agent
      service, the JSON decoder, the texts of library error messages, what
      differs between FastAPI releases) is a [Variable] of the section, so
      every theorem holds for all of them.
    - [chat_route] goes from the request as received to the response as
      sent: reading of the body, dependencies, deserialisation, handler,
      rendering. *)

From Stdlib Require Import ZArith String Ascii.
From Stdlib Require Import Floats.SpecFloat.
From stdpp Require Import base option gmap strings list pretty.

Set Warnings "-register-all".
#[local] Open Scope string_scope.
#[local] Open Scope Z_scope.

(** ** Python values *)

(** The values [json.loads] produces and [json=...] accepts. *)
Inductive PyValue : Type :=
| PyNone
| PyBool (b : bool)
| PyInt (n : Z)
| PyFloat (f : spec_float)
| PyStr (s : string)
| PyList (l : list PyValue)
| PyDict (d : gmap string PyValue).

(** [type(v).__name__], used in the interpreter's [TypeError] messages. *)
Definition py_type_name (v : PyValue) : string :=
  match v with
  | PyNone => "NoneType"
  | PyBool _ => "bool"
  | PyInt _ => "int"
  | PyFloat _ => "float"
  | PyStr _ => "str"
  | PyList _ => "list"
  | PyDict _ => "dict"
  end.

(** [os.getenv(name)] is [None] or a string. *)
Definition py_of_getenv (o : option string) : PyValue :=
  match o with
  | Some s => PyStr s
  | None => PyNone
  end.

(** [needle in hay] for two strings: substring search. *)
Fixpoint is_substring (needle hay : string) : bool :=
  String.prefix needle hay ||
  match hay with
  | EmptyString => false
  | String _ rest => is_substring needle rest
  end.

(** [v == key] for a string [key]: only an equal string is equal to it. *)
Definition py_eq_str (key : string) (v : PyValue) : bool :=
  match v with
  | PyStr s => String.eqb s key
  | _ => false
  end.

(** ** HTTP responses and exceptions *)

(** An [httpx.Response] as the program observes it: [status_code], [text]
    (the body, also what [json()] decodes) and, for a streamed response, the
    lines [aiter_lines()] delivers. *)
Record Response : Type := {
  status_code : Z;
  text : string;
  aiter_lines : list string
}.

(** The exceptions (instances of Python's [Exception]) that can reach the
    [except] clauses of the program. *)
Inductive Exception : Type :=
| HTTPStatusError (message : string) (response : Response)
| HTTPException (status : Z) (detail : string)
| JSONDecodeError (msg : string)
| TypeError (msg : string)
| KeyError (key : string)
| OtherException (class_name : string) (msg : string).

(** [str(e)].  An exception built from one positional argument prints that
    argument; [KeyError] prints the [repr] of its key (written here for a key
    without quotes or escapes, as [response] is); Starlette's
    [HTTPException.__str__] is [f"{status_code}: {detail}"]. *)
Definition py_str (e : Exception) : string :=
  match e with
  | HTTPStatusError message _ => message
  | HTTPException status detail => pretty status +:+ ": " +:+ detail
  | JSONDecodeError msg => msg
  | TypeError msg => msg
  | KeyError key => "'" +:+ key +:+ "'"
  | OtherException _ msg => msg
  end.

Definition is_HTTPStatusError (e : Exception) : bool :=
  match e with
  | HTTPStatusError _ _ => true
  | _ => false
  end.

Definition is_JSONDecodeError (e : Exception) : bool :=
  match e with
  | JSONDecodeError _ => true
  | _ => false
  end.

(** [key in container], the membership test of line 84 and line 105. *)
Definition py_contains (key : string) (container : PyValue) : Exception + bool :=
  match container with
  | PyDict d => inr (bool_decide (is_Some (d !! key)))
  | PyList l => inr (existsb (py_eq_str key) l)
  | PyStr s => inr (is_substring key s)
  | v => inl (TypeError ("argument of type '" +:+ py_type_name v +:+ "' is not iterable"))
  end.

(** [container[key]] for a string [key]. *)
Definition py_getitem (container : PyValue) (key : string) : Exception + PyValue :=
  match container with
  | PyDict d =>
      match d !! key with
      | Some v => inr v
      | None => inl (KeyError key)
      end
  | PyList _ => inl (TypeError "list indices must be integers or slices, not str")
  | PyStr _ => inl (TypeError "string indices must be integers, not 'str'")
  | v => inl (TypeError ("'" +:+ py_type_name v +:+ "' object is not subscriptable"))
  end.

(** [httpx.codes.is_success]: the 2xx range. *)
Definition is_success (r : Response) : bool :=
  (200 <=? status_code r) && (status_code r <=? 299).

(** ** The upstream call and the monad of the handler *)

(** The arguments of [client.post(url, json=payload, headers=headers)]. *)
Record UpstreamCall : Type := {
  url : PyValue;
  json : PyValue;
  headers : PyValue
}.

(** A computation that may raise and that records the upstream calls it
    issues, in order. *)
Definition IO (A : Type) : Type :=
  list UpstreamCall -> (Exception + A) * list UpstreamCall.

#[global] Instance IO_ret : MRet IO :=
  fun A (x : A) calls => (inr x, calls).

#[global] Instance IO_bind : MBind IO :=
  fun A B (f : A -> IO B) (m : IO A) calls =>
    match m calls with
    | (inl e, calls') => (inl e, calls')
    | (inr x, calls') => f x calls'
    end.

(** [raise e]. *)
Definition raise {A : Type} (e : Exception) : IO A :=
  fun calls => (inl e, calls).

(** A pure step that may raise. *)
Definition lift {A : Type} (r : Exception + A) : IO A :=
  fun calls => (r, calls).

(** [try: body  except ... as e: handler e]. *)
Definition try_except {A : Type} (body : IO A) (handler : Exception -> IO A) : IO A :=
  fun calls =>
    match body calls with
    | (inl e, calls') => handler e calls'
    | (inr x, calls') => (inr x, calls')
    end.

(** ** The inbound request *)

Record ChatRequest : Type := {
  session_id : string;
  message : string
}.

Record HTTPAuthorizationCredentials : Type := {
  scheme : string;
  credentials : string
}.

(** The inbound HTTP request as the route receives it: the [Authorization]
    header, if any, and the body once decoded from JSON. *)
Record HTTPRequest : Type := {
  authorization : option string;
  body : PyValue
}.

(** One entry of the 422 report: the field concerned and the kind of error. *)
Record ValidationIssue : Type := {
  loc : string;
  kind : string
}.

(** How the handling of a request to [/chat] ends, before the framework
    renders the response: the handler returned [content], a dependency or
    the handler raised [e], or the body was refused by deserialisation. *)
Inductive Outcome : Type :=
| Success (content : PyValue)
| Failure (e : Exception)
| Unprocessable (errors : list ValidationIssue).

(** *** Bearer extraction ([security = HTTPBearer()]) *)

(** [s.partition(" ")], without the separator: the text before the first
    space and the text after it. *)
Fixpoint partition_space (s : string) : string * string :=
  match s with
  | EmptyString => (EmptyString, EmptyString)
  | String c rest =>
      if Ascii.eqb c " "%char then (EmptyString, rest)
      else let '(before, after) := partition_space rest in (String c before, after)
  end.

(** [str.lower] on one character of a header value (headers are decoded as
    Latin-1): [A]-[Z] and the accented capitals move up by 32. *)
Definition lower_char (c : ascii) : ascii :=
  let n := N_of_ascii c in
  if ((65 <=? n) && (n <=? 90) || (192 <=? n) && (n <=? 222) && negb (n =? 215))%N
  then ascii_of_N (n + 32)
  else c.

Fixpoint lower (s : string) : string :=
  match s with
  | EmptyString => EmptyString
  | String c rest => String (lower_char c) (lower rest)
  end.

(** [str.isspace] on one character of a header value. *)
Definition is_space (c : ascii) : bool :=
  let n := N_of_ascii c in
  ((9 <=? n) && (n <=? 13) || (28 <=? n) && (n <=? 32) || (n =? 133) || (n =? 160))%N.

Fixpoint lstrip (s : string) : string :=
  match s with
  | EmptyString => EmptyString
  | String c rest => if is_space c then lstrip rest else s
  end.

Fixpoint rstrip (s : string) : string :=
  match s with
  | EmptyString => EmptyString
  | String c rest =>
      match rstrip rest with
      | EmptyString => if is_space c then EmptyString else String c EmptyString
      | kept => String c kept
      end
  end.

(** [s.strip()]. *)
Definition strip (s : string) : string := rstrip (lstrip s).

(** [fastapi.security.utils.get_authorization_scheme_param].  Some
    releases return the text after the first space as it is, others strip
    it; [strips] says which. *)
Definition get_authorization_scheme_param (strips : bool) (header : option string)
  : string * string :=
  match header with
  | None => (EmptyString, EmptyString)
  | Some EmptyString => (EmptyString, EmptyString)
  | Some value =>
      let '(sch, param) := partition_space value in
      (sch, if strips then strip param else param)
  end.

Definition nonempty (s : string) : bool :=
  match s with
  | EmptyString => false
  | String _ _ => true
  end.

(** What varies in [HTTPBearer] (with [auto_error] left at its default)
    from one FastAPI release to another: its two rejections, for a header
    with no usable credentials and for a scheme other than [bearer], and
    whether the credentials are stripped of surrounding white space. *)
Record SecurityErrors : Type := {
  not_authenticated : Exception;
  invalid_scheme : Exception;
  strips_credentials : bool
}.

(** The FastAPI releases that answer 403 to both and keep the credentials
    as they are. *)
Definition fastapi_forbidden : SecurityErrors := {|
  not_authenticated := HTTPException 403 "Not authenticated";
  invalid_scheme := HTTPException 403 "Invalid authentication credentials";
  strips_credentials := false
|}.

(** The FastAPI releases that answer 401 [Not authenticated] to both and
    strip the credentials. *)
Definition fastapi_unauthorized : SecurityErrors := {|
  not_authenticated := HTTPException 401 "Not authenticated";
  invalid_scheme := HTTPException 401 "Not authenticated";
  strips_credentials := true
|}.

(** *** Body deserialisation ([request: ChatRequest]) *)

(** A field annotated [str]: present and a string, of any length. *)
Definition validate_str (d : gmap string PyValue) (name : string)
  : list ValidationIssue + string :=
  match d !! name with
  | None => inl [ {| loc := name; kind := "missing" |} ]
  | Some (PyStr s) => inr s
  | Some _ => inl [ {| loc := name; kind := "string_type" |} ]
  end.

Definition issues_of {A : Type} (r : list ValidationIssue + A) : list ValidationIssue :=
  match r with
  | inl errors => errors
  | inr _ => []
  end.

(** Pydantic's validation of the JSON body against the model of lines
    37-39: both fields are checked and all issues are reported; fields the
    model does not declare are ignored.  A body that is not an object is
    of the wrong type. *)
Definition ChatRequest_validate (b : PyValue) : list ValidationIssue + ChatRequest :=
  match b with
  | PyDict d =>
      match validate_str d "session_id", validate_str d "message" with
      | inr s, inr m => inr {| session_id := s; message := m |}
      | r1, r2 => inl (issues_of r1 ++ issues_of r2)%list
      end
  | _ => inl [ {| loc := "body"; kind := "model_attributes_type" |} ]
  end.

(** ** The request as received and the response as sent *)

(** The body of the inbound request as the route reads it: nothing, a text
    to be decoded as JSON (the content type is a JSON one, or is absent), or
    bytes of another content type, which are not decoded. *)
Inductive RawBody : Type :=
| BodyEmpty
| BodyJSON (content : string)
| BodyOther (content : string).

Record RawRequest : Type := {
  raw_authorization : option string;
  raw_body : RawBody
}.

Inductive Body : Type :=
| JSONBody (v : PyValue)
| ValidationReport (errors : list ValidationIssue)
| PlainText (s : string)
| NoBody.

Record HTTPResponse : Type := {
  http_status : Z;
  http_body : Body
}.

Definition finite_float (f : spec_float) : bool :=
  match f with
  | S754_infinity _ | S754_nan => false
  | _ => true
  end.

(** What [json.dumps(..., allow_nan=False)] accepts: a value in which no
    number is NaN or infinite.  (A [string] here is text that can be
    encoded; a Python [str] holding a lone surrogate has no counterpart.) *)
Fixpoint json_compliant (v : PyValue) : bool :=
  match v with
  | PyFloat f => finite_float f
  | PyList l => forallb json_compliant l
  | PyDict d => map_fold (fun _ w acc => json_compliant w && acc) true d
  | _ => true
  end.

(** [fastapi.utils.is_body_allowed_for_status_code]. *)
Definition is_body_allowed_for_status_code (status : Z) : bool :=
  negb ((status <? 200) || (status =? 204) || (status =? 205) || (status =? 304)).

(** An exception nobody handles: the server's last resort. *)
Definition internal_server_error : HTTPResponse :=
  {| http_status := 500; http_body := PlainText "Internal Server Error" |}.

(** The response the framework sends for an outcome.  A returned value is
    rendered by [JSONResponse] with status 200, and the [ValueError] of a
    value that cannot be rendered is handled by nobody; an [HTTPException]
    becomes its status with [{"detail": ...}], without a body for the
    statuses that allow none; a refused body is a 422 with the report. *)
Definition respond (o : Outcome) : HTTPResponse :=
  match o with
  | Success content =>
      if json_compliant content
      then {| http_status := 200; http_body := JSONBody content |}
      else internal_server_error
  | Failure (HTTPException status detail) =>
      if is_body_allowed_for_status_code status
      then {| http_status := status;
              http_body := JSONBody (PyDict {[ "detail" := PyStr detail ]}) |}
      else {| http_status := status; http_body := NoBody |}
  | Failure _ => internal_server_error
  | Unprocessable errors => {| http_status := 422; http_body := ValidationReport errors |}
  end.

(** ** Sample data

    Concrete environments, requests and agents on which the program is run
    in the examples that follow the proofs. *)

(** JSON texts are written with [dq] for the double quote. *)
Definition dq : string := String "034"%char EmptyString.

Definition json_string (s : string) : string := dq +:+ s +:+ dq.

(** The text of a JSON object with one member; [v] is already JSON text. *)
Definition json_member (k v : string) : string :=
  "{" +:+ json_string k +:+ ":" +:+ v +:+ "}".

(** A decoder given by the finite table of the texts it accepts; any other
    text is refused with a [JSONDecodeError]. *)
Fixpoint decode_table (table : list (string * PyValue)) (s : string)
  : Exception + PyValue :=
  match table with
  | [] => inl (JSONDecodeError "Expecting value: line 1 column 1 (char 0)")
  | (t, v) :: rest => if String.eqb s t then inr v else decode_table rest s
  end.

Definition hello_text : string := json_member "response" (json_string "Hello!").
Definition foo_text : string := json_member "foo" (json_string "bar").
Definition unavailable_text : string := json_member "error" (json_string "unavailable").
Definition nested_text : string := json_member "response" (json_member "n" "1").
Definition chunk_a : string := json_member "response" (json_string "a").
Definition chunk_b : string := json_member "response" (json_string "b").

Definition chat_fields (sid msg : string) : gmap string PyValue :=
  <["session_id" := PyStr sid]> (<["message" := PyStr msg]> ∅).

Definition chat_body (sid msg : string) : PyValue := PyDict (chat_fields sid msg).

(** The JSON text of a request body with the two fields. *)
Definition chat_text (sid msg : string) : string :=
  "{" +:+ json_string "session_id" +:+ ":" +:+ json_string sid +:+ ","
      +:+ json_string "message" +:+ ":" +:+ json_string msg +:+ "}".

(** Numbers beyond the range of a float: [json.loads] reads them as
    infinities. *)
Definition overflow_text : string := json_member "response" "1e400".
Definition overflow_array_text : string := json_member "response" "[-1e400]".

Definition sample_loads : string -> Exception + PyValue :=
  decode_table
    [ (hello_text, PyDict {[ "response" := PyStr "Hello!" ]});
      (foo_text, PyDict {[ "foo" := PyStr "bar" ]});
      (unavailable_text, PyDict {[ "error" := PyStr "unavailable" ]});
      (nested_text, PyDict {[ "response" := PyDict {[ "n" := PyInt 1 ]} ]});
      (chunk_a, PyDict {[ "response" := PyStr "a" ]});
      (chunk_b, PyDict {[ "response" := PyStr "b" ]});
      ("null", PyNone);
      (chat_text "abc-1" "Hi", chat_body "abc-1" "Hi");
      (overflow_text, PyDict {[ "response" := PyFloat (S754_infinity false) ]});
      (overflow_array_text,
       PyDict {[ "response" := PyList [PyFloat (S754_infinity true)] ]}) ].

Definition sample_environ : gmap string string :=
  <["BEARER_TOKEN" := "s3cret"]>
  (<["API_KEY" := "k-123"]>
  (<["AGENT_API_URL" := "https://agent.example/v3/chat"]> ∅)).

(** An environment in which [BEARER_TOKEN] is not set. *)
Definition tokenless_environ : gmap string string :=
  <["AGENT_API_URL" := "https://agent.example/v3/chat"]> ∅.

(** An agent that answers every call with the given status and body. *)
Definition agent_replies (status : Z) (content : string)
  : UpstreamCall -> Exception + Response :=
  fun _ => inr {| status_code := status; text := content; aiter_lines := [] |}.

(** An agent that streams the given lines with status 200. *)
Definition agent_streams (lines : list string) : UpstreamCall -> Exception + Response :=
  fun _ => inr {| status_code := 200; text := ""; aiter_lines := lines |}.


(** A short stand-in for the message httpx gives to its status errors (the
    real text also carries the reason phrase and a second line). *)
Definition sample_status_message (r : Response) : string :=
  (if (500 <=? status_code r) then "Server error '" else "Client error '")
  +:+ pretty (status_code r) +:+ "' for url 'https://agent.example/v3/chat'".

(** A body that, besides the two fields, tries to name the upstream user. *)
Definition spoofing_fields : gmap string PyValue :=
  <["user_id" := PyStr "mallory"]> (<["agent_id" := PyStr "other"]> (chat_fields "abc-1" "Hi")).

Definition good_request : HTTPRequest :=
  {| authorization := Some "Bearer s3cret"; body := chat_body "abc-1" "Hi" |}.

Definition wrong_token_request : HTTPRequest :=
  {| authorization := Some "Bearer guess"; body := chat_body "abc-1" "Hi" |}.

Definition anonymous_request : HTTPRequest :=
  {| authorization := None; body := chat_body "abc-1" "Hi" |}.

Definition empty_fields_request : HTTPRequest :=
  {| authorization := Some "Bearer s3cret"; body := chat_body "" "" |}.

Definition spoofing_request : HTTPRequest :=
  {| authorization := Some "Bearer s3cret"; body := PyDict spoofing_fields |}.


Definition wrong_token_raw : RawRequest :=
  {| raw_authorization := Some "Bearer guess";
     raw_body := BodyJSON (chat_text "abc-1" "Hi") |}.

Definition anonymous_raw : RawRequest :=
  {| raw_authorization := None; raw_body := BodyJSON (chat_text "abc-1" "Hi") |}.

(** A wrong token together with a body that is not JSON. *)
Definition garbled_wrong_token_raw : RawRequest :=
  {| raw_authorization := Some "Bearer guess"; raw_body := BodyJSON "<html>" |}.

Definition good_chat : ChatRequest := {| session_id := "abc-1"; message := "Hi" |}.

(** ** The program *)

Section Relay.

(** The process environment read by [os.getenv]. *)
Variable environ : gmap string string.

(** The agent service and the transport: what [client.post] does with a
    call, a raised exception or a response. *)
Variable upstream : UpstreamCall -> Exception + Response.

(** [json.loads]. *)
Variable json_loads : string -> Exception + PyValue.

(** The message [raise_for_status] gives to its [HTTPStatusError]. *)
Variable status_error_message : Response -> string.

(** The rejections of the installed [HTTPBearer]. *)
Variable security_errors : SecurityErrors.

(** [os.getenv(name)] and [os.getenv(name, default)]. *)
Definition getenv (name : string) : option string := environ !! name.

Definition getenv_default (name fallback : string) : string :=
  default fallback (environ !! name).

(** [HTTPBearer.__call__]. *)
Definition HTTPBearer (header : option string)
  : Exception + HTTPAuthorizationCredentials :=
  let '(sch, cred) :=
    get_authorization_scheme_param (strips_credentials security_errors) header in
  if negb (nonempty (default "" header) && nonempty sch && nonempty cred)
  then inl (not_authenticated security_errors)
  else if negb (String.eqb (lower sch) "bearer")
  then inl (invalid_scheme security_errors)
  else inr {| scheme := sch; credentials := cred |}.

(** [presented != expected] where [expected] is [os.getenv(...)]: a string
    is never equal to [None]. *)
Definition differs (presented : string) (expected : option string) : bool :=
  match expected with
  | Some t => negb (String.eqb presented t)
  | None => true
  end.

(** Lines 45-52. *)
Definition verify_token (c : HTTPAuthorizationCredentials) : Exception + string :=
  let expected_token := getenv "BEARER_TOKEN" in
  if differs (credentials c) expected_token
  then inl (HTTPException 401 "Invalid or missing Bearer token")
  else inr (credentials c).

(** The dependency chain [Depends(verify_token)] over [Security(security)]. *)
Definition authorize (req : HTTPRequest) : Exception + string :=
  match HTTPBearer (authorization req) with
  | inl e => inl e
  | inr c => verify_token c
  end.

(** [client.post(...)]: the call is recorded, then answered by [upstream]. *)
Definition client_post (call : UpstreamCall) : IO Response :=
  fun calls => (upstream call, (calls ++ [call])%list).

(** [response.raise_for_status()]. *)
Definition raise_for_status (r : Response) : Exception + Response :=
  if is_success r then inr r
  else inl (HTTPStatusError (status_error_message r) r).

(** [response.json()]. *)
Definition Response_json (r : Response) : Exception + PyValue :=
  json_loads (text r).

(** Lines 59-62. *)
Definition request_headers : PyValue :=
  PyDict (<["Content-Type" := PyStr "application/json"]>
          (<["x-api-key" := py_of_getenv (getenv "API_KEY")]> ∅)).

(** Lines 64-72. *)
Definition payload (request : ChatRequest) : gmap string PyValue :=
  <["user_id" := PyStr (getenv_default "USER_ID" "default_user")]>
  (<["agent_id" := PyStr (getenv_default "AGENT_ID" "")]>
  (<["session_id" := PyStr (session_id request)]>
  (<["message" := PyStr (message request)]>
  (<["system_prompt_variables" := PyDict ∅]>
  (<["filter_variables" := PyDict ∅]>
  (<["features" := PyList []]> ∅)))))).

(** The call of lines 75-79. *)
Definition outbound (request : ChatRequest) : UpstreamCall := {|
  url := py_of_getenv (getenv "AGENT_API_URL");
  json := PyDict (payload request);
  headers := request_headers
|}.

(** The body of the [try] block, lines 58-88. *)
Definition forward (request : ChatRequest) : IO PyValue :=
  response ← client_post (outbound request);
  _ ← lift (raise_for_status response);
  result ← lift (Response_json response);
  present ← lift (py_contains "response" result);
  if negb present
  then raise (HTTPException 500 "Invalid response format from HR agent API")
  else
    v ← lift (py_getitem result "response");
    mret (PyDict {[ "response" := v ]}).

(** The two [except] clauses, lines 90-96, tried in order. *)
Definition translate (e : Exception) : IO PyValue :=
  match e with
  | HTTPStatusError _ response => raise (HTTPException (status_code response) (py_str e))
  | _ => raise (HTTPException 500 (py_str e))
  end.

(** Lines 55-96.  The [token] argument is the value of the dependency. *)
Definition chat_with_agent (request : ChatRequest) (token : string) : IO PyValue :=
  try_except (forward request) translate.

(** The route [POST /chat] once the body has been read: dependencies
    first, then the deserialisation of the body, then the handler.  The
    outcome is not yet a response: see [respond] and [chat_route]. *)
Definition chat_endpoint (req : HTTPRequest) (calls : list UpstreamCall)
  : Outcome * list UpstreamCall :=
  match authorize req with
  | inl e => (Failure e, calls)
  | inr token =>
      match ChatRequest_validate (body req) with
      | inl errors => (Unprocessable errors, calls)
      | inr request =>
          match chat_with_agent request token calls with
          | (inl e, calls') => (Failure e, calls')
          | (inr content, calls') => (Success content, calls')
          end
      end
  end.

(** The route [POST /chat] from the request as received to the response as
    sent.  The body is read and decoded before anything else: a text that is
    not JSON is a 422 at once, any other failure to read it a 400.  An empty
    body, and bytes that are not JSON, go on to the dependencies and are
    refused by deserialisation afterwards. *)
Definition chat_route (raw : RawRequest) (calls : list UpstreamCall)
  : HTTPResponse * list UpstreamCall :=
  match raw_body raw with
  | BodyJSON content =>
      match json_loads content with
      | inl e =>
          if is_JSONDecodeError e
          then (respond (Unprocessable [ {| loc := "body"; kind := "json_invalid" |} ]), calls)
          else (respond (Failure (HTTPException 400 "There was an error parsing the body")),
                calls)
      | inr b =>
          let '(o, calls') :=
            chat_endpoint {| authorization := raw_authorization raw; body := b |} calls in
          (respond o, calls')
      end
  | unread =>
      match authorize {| authorization := raw_authorization raw; body := PyNone |} with
      | inl e => (respond (Failure e), calls)
      | inr _ =>
          (respond (Unprocessable
                      [ {| loc := "body";
                           kind := match unread with
                                   | BodyEmpty => "missing"
                                   | _ => "model_attributes_type"
                                   end |} ]),
           calls)
      end
  end.

(** *** The streaming generator *)

(** What a run of the generator produces: the values yielded, in order,
    and the exception that ended it, if one did. *)
Record Stream : Type := {
  yielded : list PyValue;
  ended_by : option Exception
}.

Definition yield (v : PyValue) (rest : Stream) : Stream :=
  {| yielded := v :: yielded rest; ended_by := ended_by rest |}.

Definition stop (e : option Exception) : Stream :=
  {| yielded := []; ended_by := e |}.

(** The body of the loop, lines 101-111, over the lines still to come. *)
Fixpoint stream_lines (lines : list string) : Stream :=
  match lines with
  | [] => stop None
  | line :: rest =>
      if nonempty line then
        match json_loads line with
        | inl e => if is_JSONDecodeError e then stream_lines rest else stop (Some e)
        | inr data =>
            match py_contains "response" data with
            | inl e => stop (Some e)
            | inr true =>
                match py_getitem data "response" with
                | inl e => stop (Some e)
                | inr v => yield v (stream_lines rest)
                end
            | inr false => stream_lines rest
            end
        end
      else stream_lines rest
  end.

(** Lines 98-111; [client.stream] is answered by [upstream] as well. *)
Definition stream_response (target : PyValue) (hdrs : PyValue) (pl : PyValue) : Stream :=
  match upstream {| url := target; json := pl; headers := hdrs |} with
  | inl e => stop (Some e)
  | inr response =>
      match raise_for_status response with
      | inl e => stop (Some e)
      | inr _ => stream_lines (aiter_lines response)
      end
  end.

(** *** Running the handler *)

(** The result of the [try] block as a function of the agent's answer;
    exactly one call is recorded whatever the answer is. *)
Lemma forward_run (request : ChatRequest) (calls : list UpstreamCall) :
  forward request calls =
  (match upstream (outbound request) with
   | inl e => inl e
   | inr response =>
       match raise_for_status response with
       | inl e => inl e
       | inr _ =>
           match Response_json response with
           | inl e => inl e
           | inr result =>
               match py_contains "response" result with
               | inl e => inl e
               | inr present =>
                   if negb present
                   then inl (HTTPException 500 "Invalid response format from HR agent API")
                   else match py_getitem result "response" with
                        | inl e => inl e
                        | inr v => inr (PyDict {[ "response" := v ]})
                        end
               end
           end
       end
   end, (calls ++ [outbound request])%list).
Proof.
  unfold forward, mbind, IO_bind, client_post, lift, raise, mret, IO_ret.
  destruct (upstream (outbound request)) as [e|response]; [reflexivity|].
  destruct (raise_for_status response) as [e|?]; [reflexivity|].
  destruct (Response_json response) as [e|result]; [reflexivity|].
  destruct (py_contains "response" result) as [e|[|]]; simpl; try reflexivity.
  destruct (py_getitem result "response"); reflexivity.
Qed.

Lemma forward_calls (request : ChatRequest) (calls : list UpstreamCall) :
  snd (forward request calls) = (calls ++ [outbound request])%list.
Proof. rewrite forward_run. reflexivity. Qed.

Lemma translate_calls (e : Exception) (calls : list UpstreamCall) :
  snd (translate e calls) = calls.
Proof. destruct e; reflexivity. Qed.

Lemma chat_with_agent_calls (request : ChatRequest) (token : string)
    (calls : list UpstreamCall) :
  snd (chat_with_agent request token calls) = (calls ++ [outbound request])%list.
Proof.
  unfold chat_with_agent, try_except.
  pose proof (forward_calls request calls) as Hc.
  destruct (forward request calls) as [[e|v] calls']; simpl in *; subst calls'.
  - apply translate_calls.
  - reflexivity.
Qed.

Lemma raise_for_status_success (r : Response) :
  is_success r = true -> raise_for_status r = inr r.
Proof. unfold raise_for_status. intros ->. reflexivity. Qed.

Lemma raise_for_status_error (r : Response) :
  is_success r = false ->
  raise_for_status r = inl (HTTPStatusError (status_error_message r) r).
Proof. unfold raise_for_status. intros ->. reflexivity. Qed.

Lemma is_success_range (r : Response) :
  is_success r = true <-> 200 <= status_code r <= 299.
Proof. unfold is_success. rewrite andb_true_iff, !Z.leb_le. reflexivity. Qed.

Lemma py_contains_dict (d : gmap string PyValue) (key : string) (v : PyValue) :
  d !! key = Some v -> py_contains key (PyDict d) = inr true.
Proof.
  intros H. simpl. f_equal. apply bool_decide_eq_true. rewrite H. eauto.
Qed.

Lemma py_contains_dict_absent (d : gmap string PyValue) (key : string) :
  d !! key = None -> py_contains key (PyDict d) = inr false.
Proof.
  intros H. simpl. f_equal. apply bool_decide_eq_false. rewrite H.
  intros [? ?]. discriminate.
Qed.

(** The handler on a 2xx answer that decodes to a dict holding [response]. *)
Lemma chat_with_agent_relays (request : ChatRequest) (token : string)
    (calls : list UpstreamCall) (r : Response) (d : gmap string PyValue) (v : PyValue) :
  upstream (outbound request) = inr r ->
  is_success r = true ->
  Response_json r = inr (PyDict d) ->
  d !! "response" = Some v ->
  chat_with_agent request token calls =
    (inr (PyDict {[ "response" := v ]}), (calls ++ [outbound request])%list).
Proof.
  intros Hup Hok Hjson Hv.
  unfold chat_with_agent, try_except. rewrite forward_run, Hup.
  rewrite (raise_for_status_success _ Hok), Hjson.
  rewrite (py_contains_dict _ _ _ Hv). simpl. rewrite Hv. reflexivity.
Qed.

(** The handler on a 2xx answer that decodes to a dict without [response]:
    the [HTTPException] raised at line 86 is caught at line 93. *)
Lemma chat_with_agent_missing_field (request : ChatRequest) (token : string)
    (calls : list UpstreamCall) (r : Response) (d : gmap string PyValue) :
  upstream (outbound request) = inr r ->
  is_success r = true ->
  Response_json r = inr (PyDict d) ->
  d !! "response" = None ->
  chat_with_agent request token calls =
    (inl (HTTPException 500
            (py_str (HTTPException 500 "Invalid response format from HR agent API"))),
     (calls ++ [outbound request])%list).
Proof.
  intros Hup Hok Hjson Hv.
  unfold chat_with_agent, try_except. rewrite forward_run, Hup.
  rewrite (raise_for_status_success _ Hok), Hjson.
  rewrite (py_contains_dict_absent _ _ Hv). reflexivity.
Qed.

(** The route on an authorised, well-formed request is the handler. *)
Lemma chat_endpoint_handler (req : HTTPRequest) (token : string)
    (request : ChatRequest) (calls : list UpstreamCall) :
  authorize req = inr token ->
  ChatRequest_validate (body req) = inr request ->
  chat_endpoint req calls =
    match chat_with_agent request token calls with
    | (inl e, calls') => (Failure e, calls')
    | (inr content, calls') => (Success content, calls')
    end.
Proof. intros Ha Hv. unfold chat_endpoint. rewrite Ha, Hv. reflexivity. Qed.

(** *** The forwarding contract *)

(** Before rendering: on an authenticated, well-formed request, when the
    agent answers with a 2xx status and a body that decodes to an object
    holding [response], the handler returns the object [{"response": v}] and
    nothing else of the agent's body, after exactly one upstream call. *)
Lemma chat_success_relays_response (req : HTTPRequest) (token : string)
    (request : ChatRequest) (r : Response) (d : gmap string PyValue) (v : PyValue) :
  authorize req = inr token ->
  ChatRequest_validate (body req) = inr request ->
  upstream (outbound request) = inr r ->
  200 <= status_code r <= 299 ->
  Response_json r = inr (PyDict d) ->
  d !! "response" = Some v ->
  chat_endpoint req [] = (Success (PyDict {[ "response" := v ]}), [outbound request]).
Proof.
  intros Ha Hb Hup Hok Hjson Hv.
  rewrite (chat_endpoint_handler _ _ _ _ Ha Hb).
  apply is_success_range in Hok.
  rewrite (chat_with_agent_relays _ _ _ _ _ _ Hup Hok Hjson Hv).
  reflexivity.
Qed.

(** C2.  On an authenticated request whose body carries the strings [s]
    and [m] as [session_id] and [message], exactly one call goes upstream,
    and its JSON payload has [session_id] = [s], [message] = [m], empty
    mappings for [system_prompt_variables] and [filter_variables], an
    empty sequence for [features], [user_id] and [agent_id] read from the
    environment (defaults [default_user] and the empty string), and no
    other key: nothing else of the caller's body reaches it. *)
Theorem outbound_payload_passthrough (req : HTTPRequest) (token : string)
    (b : gmap string PyValue) (s m : string) :
  authorize req = inr token ->
  body req = PyDict b ->
  b !! "session_id" = Some (PyStr s) ->
  b !! "message" = Some (PyStr m) ->
  exists p : gmap string PyValue,
    json <$> (chat_endpoint req []).2 = [PyDict p] /\
    p !! "session_id" = Some (PyStr s) /\
    p !! "message" = Some (PyStr m) /\
    p !! "system_prompt_variables" = Some (PyDict ∅) /\
    p !! "filter_variables" = Some (PyDict ∅) /\
    p !! "features" = Some (PyList []) /\
    p !! "user_id" = Some (PyStr (default "default_user" (environ !! "USER_ID"))) /\
    p !! "agent_id" = Some (PyStr (default "" (environ !! "AGENT_ID"))) /\
    dom p = list_to_set [ "user_id"; "agent_id"; "session_id"; "message";
                          "system_prompt_variables"; "filter_variables"; "features" ].
Proof.
  intros Ha Hb Hs Hm.
  assert (Hv : ChatRequest_validate (body req)
               = inr {| session_id := s; message := m |}).
  { rewrite Hb. unfold ChatRequest_validate, validate_str. rewrite Hs, Hm. reflexivity. }
  exists (payload {| session_id := s; message := m |}).
  rewrite (chat_endpoint_handler _ _ _ _ Ha Hv).
  pose proof (chat_with_agent_calls {| session_id := s; message := m |} token []) as Hc.
  destruct (chat_with_agent _ token []) as [[e|v] calls']; simpl in Hc; subst calls';
    (split; [reflexivity|]);
    unfold payload, getenv_default; simpl;
    repeat split; try reflexivity;
    rewrite !dom_insert_L, dom_empty_L; set_solver.
Qed.

(** *** Authorisation *)

Lemma differs_true (presented : string) (expected : option string) :
  differs presented expected = true <-> expected <> Some presented.
Proof.
  destruct expected as [t|]; simpl.
  - rewrite negb_true_iff, String.eqb_neq. split; intros H; congruence.
  - split; [discriminate | reflexivity].
Qed.

Lemma verify_token_rejects (c : HTTPAuthorizationCredentials) :
  environ !! "BEARER_TOKEN" <> Some (credentials c) ->
  verify_token c = inl (HTTPException 401 "Invalid or missing Bearer token").
Proof.
  intros H. unfold verify_token, getenv.
  apply differs_true in H. rewrite H. reflexivity.
Qed.

(** Once the body has been read: a request that does not authenticate
    fails without any upstream call being issued, and when a credential was
    presented the failure is the 401 of [verify_token]. *)
Lemma unauthorized_short_circuits (req : HTTPRequest) (calls : list UpstreamCall) :
  (forall c, HTTPBearer (authorization req) = inr c ->
             environ !! "BEARER_TOKEN" <> Some (credentials c)) ->
  exists e,
    chat_endpoint req calls = (Failure e, calls) /\
    (forall c, HTTPBearer (authorization req) = inr c ->
               e = HTTPException 401 "Invalid or missing Bearer token").
Proof.
  intros Hbad. unfold chat_endpoint, authorize.
  destruct (HTTPBearer (authorization req)) as [e|c] eqn:Hb.
  - exists e. split; [reflexivity | intros c Hc; discriminate].
  - rewrite (verify_token_rejects c (Hbad c eq_refl)).
    eexists. split; [reflexivity | intros; reflexivity].
Qed.

(** Without an [Authorization] header the request is turned away by
    [HTTPBearer], with that extractor's own error, and nothing is sent. *)
Lemma chat_endpoint_anonymous (req : HTTPRequest) (calls : list UpstreamCall) :
  authorization req = None ->
  chat_endpoint req calls = (Failure (not_authenticated security_errors), calls).
Proof.
  intros H. unfold chat_endpoint, authorize, HTTPBearer. rewrite H. reflexivity.
Qed.

(** C9.  When [BEARER_TOKEN] is not set, [verify_token] raises the 401 for
    every credential presented. *)
Theorem unset_token_rejects_everyone (c : HTTPAuthorizationCredentials) :
  getenv "BEARER_TOKEN" = None ->
  verify_token c = inl (HTTPException 401 "Invalid or missing Bearer token").
Proof.
  intros H. apply verify_token_rejects. unfold getenv in H. rewrite H. discriminate.
Qed.

(** *** Error translation *)

(** C4.  On an authenticated, well-formed request, when the agent answers
    with a status [S] outside 2xx, the route fails with an [HTTPException]
    whose status is [S] and whose detail is [str] of the
    [HTTPStatusError]; exactly one upstream call was made. *)
Theorem upstream_status_error_propagates (req : HTTPRequest) (token : string)
    (request : ChatRequest) (r : Response) :
  authorize req = inr token ->
  ChatRequest_validate (body req) = inr request ->
  upstream (outbound request) = inr r ->
  ~ (200 <= status_code r <= 299) ->
  chat_endpoint req [] =
    (Failure (HTTPException (status_code r)
                (py_str (HTTPStatusError (status_error_message r) r))),
     [outbound request]).
Proof.
  intros Ha Hb Hup Hbad.
  rewrite (chat_endpoint_handler _ _ _ _ Ha Hb).
  unfold chat_with_agent, try_except. rewrite forward_run, Hup.
  rewrite raise_for_status_error; [reflexivity|].
  destruct (is_success r) eqn:Hs; [|reflexivity].
  apply is_success_range in Hs. contradiction.
Qed.


(** The handler looks only at the presence of the key: when the agent's
    2xx body decodes to an object binding [response] to [v], for any value
    [v] whatever, the handler returns [{"response": v}]. *)
Lemma chat_relays_any_value (request : ChatRequest) (token : string)
    (calls : list UpstreamCall) (r : Response) (d : gmap string PyValue) (v : PyValue) :
  upstream (outbound request) = inr r ->
  200 <= status_code r <= 299 ->
  Response_json r = inr (PyDict (<["response" := v]> d)) ->
  chat_with_agent request token calls =
    (inr (PyDict {[ "response" := v ]}), (calls ++ [outbound request])%list).
Proof.
  intros Hup Hok Hjson. apply is_success_range in Hok.
  apply (chat_with_agent_relays _ _ _ _ _ _ Hup Hok Hjson).
  apply lookup_insert_eq.
Qed.

(** *** Deserialisation of the body *)

Lemma ChatRequest_validate_strings (d : gmap string PyValue) (s m : string) :
  d !! "session_id" = Some (PyStr s) ->
  d !! "message" = Some (PyStr m) ->
  ChatRequest_validate (PyDict d) = inr {| session_id := s; message := m |}.
Proof.
  intros Hs Hm. unfold ChatRequest_validate, validate_str. rewrite Hs, Hm. reflexivity.
Qed.

Lemma ChatRequest_validate_accepts (b : PyValue) (request : ChatRequest) :
  ChatRequest_validate b = inr request ->
  exists d, b = PyDict d /\
            d !! "session_id" = Some (PyStr (session_id request)) /\
            d !! "message" = Some (PyStr (message request)).
Proof.
  destruct b as [| | | | |l|d]; try discriminate.
  unfold ChatRequest_validate, validate_str.
  destruct (d !! "session_id") as [[]|] eqn:Hs; try discriminate;
    destruct (d !! "message") as [[]|] eqn:Hm; try discriminate.
  intros [= <-]. exists d. auto.
Qed.

Lemma ChatRequest_validate_issues (b : PyValue) (errors : list ValidationIssue) :
  ChatRequest_validate b = inl errors -> errors <> [].
Proof.
  destruct b as [| | | | |l|d]; try (intros [= <-]; discriminate).
  unfold ChatRequest_validate, validate_str.
  destruct (d !! "session_id") as [[]|]; destruct (d !! "message") as [[]|];
    intros [= <-]; discriminate.
Qed.

(** C7, as amended.  Deserialisation checks that [session_id] and
    [message] are present and are strings, not that they are non-empty: on
    an authenticated request whose body carries strings [s] and [m], of any
    length, the handler body runs on [(s, m)]; a body that does not carry
    two such strings is answered with a non-empty list of validation issues
    (the 422), and no upstream call is made. *)
Theorem chat_request_validation (req : HTTPRequest) (token : string)
    (calls : list UpstreamCall) :
  authorize req = inr token ->
  (forall d s m,
      body req = PyDict d ->
      d !! "session_id" = Some (PyStr s) ->
      d !! "message" = Some (PyStr m) ->
      chat_endpoint req calls =
        match chat_with_agent {| session_id := s; message := m |} token calls with
        | (inl e, calls') => (Failure e, calls')
        | (inr content, calls') => (Success content, calls')
        end)
  /\
  ((~ exists d s m, body req = PyDict d /\
                    d !! "session_id" = Some (PyStr s) /\
                    d !! "message" = Some (PyStr m)) ->
   exists errors, errors <> [] /\ chat_endpoint req calls = (Unprocessable errors, calls)).
Proof.
  intros Ha. split.
  - intros d s m Hb Hs Hm. apply chat_endpoint_handler; [exact Ha|].
    rewrite Hb. apply ChatRequest_validate_strings; assumption.
  - intros Hno. unfold chat_endpoint. rewrite Ha.
    destruct (ChatRequest_validate (body req)) as [errors|request] eqn:Hv.
    + exists errors. split; [eapply ChatRequest_validate_issues; eauto | reflexivity].
    + exfalso. apply Hno.
      destruct (ChatRequest_validate_accepts _ _ Hv) as (d & Hb & Hs & Hm). eauto 6.
Qed.

(** *** The streaming generator *)

(** What a line contributes when it is empty, is refused by the decoder,
    or decodes to an object: the value bound to [response], if any. *)
Lemma stream_lines_objects (lines : list string) :
  Forall (fun line =>
            nonempty line = true ->
            (exists e, json_loads line = inl e /\ is_JSONDecodeError e = true) \/
            (exists d, json_loads line = inr (PyDict d))) lines ->
  stream_lines lines =
    {| yielded :=
         omap (fun line =>
                 if nonempty line then
                   match json_loads line with
                   | inr (PyDict d) => d !! "response"
                   | _ => None
                   end
                 else None) lines;
       ended_by := None |}.
Proof.
  induction 1 as [|line rest Hline _ IH]; [reflexivity|].
  simpl. destruct (nonempty line); [|exact IH].
  destruct (Hline eq_refl) as [(e & -> & ->)|(d & ->)]; [exact IH|].
  simpl. destruct (d !! "response") as [v|] eqn:Hv.
  - rewrite bool_decide_eq_true_2 by eauto. rewrite IH. reflexivity.
  - rewrite bool_decide_eq_false_2 by (intros [? ?]; discriminate). exact IH.
Qed.

(** *** Further properties of the token check and of the route *)

Lemma differs_false (presented : string) (expected : option string) :
  differs presented expected = false <-> expected = Some presented.
Proof.
  destruct expected as [t|]; simpl.
  - rewrite negb_false_iff, String.eqb_eq. split; intros H; congruence.
  - split; discriminate.
Qed.

(** X1.  [verify_token] lets a credential through exactly when
    [BEARER_TOKEN] is set to that very string, and what it returns is the
    credential itself. *)
Theorem verify_token_accepts_iff (c : HTTPAuthorizationCredentials) (t : string) :
  verify_token c = inr t <->
  environ !! "BEARER_TOKEN" = Some (credentials c) /\ t = credentials c.
Proof.
  unfold verify_token, getenv.
  destruct (differs (credentials c) (environ !! "BEARER_TOKEN")) eqn:Hd.
  - apply differs_true in Hd. split; [discriminate | intros [H _]; contradiction].
  - apply differs_false in Hd. split.
    + intros [= <-]. auto.
    + intros [_ ->]. reflexivity.
Qed.

(** X2.  A request whose header is [Bearer], one space, and a non-empty
    token without surrounding white space, equal to [BEARER_TOKEN], passes
    the dependency chain, and the value handed to the handler is that token;
    this holds whether or not the installed [HTTPBearer] strips the
    credentials. *)
Theorem bearer_header_authenticates (req : HTTPRequest) (tok : string) :
  authorization req = Some ("Bearer " +:+ tok) ->
  tok <> "" ->
  strip tok = tok ->
  environ !! "BEARER_TOKEN" = Some tok ->
  authorize req = inr tok.
Proof.
  intros Hh Hne Hstrip Henv. cbv [String.append] in Hh.
  unfold authorize, HTTPBearer. rewrite Hh.
  cbn [get_authorization_scheme_param partition_space Ascii.eqb Bool.eqb].
  replace (if strips_credentials security_errors then strip tok else tok) with tok
    by (destruct (strips_credentials security_errors); congruence).
  destruct tok as [|a tok']; [contradiction|]. simpl.
  apply verify_token_accepts_iff. simpl. auto.
Qed.

(** X3.  The route issues at most one upstream call per request, and it
    issues one exactly when the token verifies and the body deserialises. *)
Theorem upstream_called_iff_admitted (req : HTTPRequest) (calls : list UpstreamCall) :
  exists issued : list UpstreamCall,
    (chat_endpoint req calls).2 = (calls ++ issued)%list /\
    (length issued <= 1)%nat /\
    (issued <> [] <->
     (exists token, authorize req = inr token) /\
     (exists request, ChatRequest_validate (body req) = inr request)).
Proof.
  unfold chat_endpoint.
  destruct (authorize req) as [e|token].
  { exists []. simpl. rewrite app_nil_r. repeat split; try lia; try contradiction.
    intros [[? [=]] _]. }
  destruct (ChatRequest_validate (body req)) as [errors|request].
  { exists []. simpl. rewrite app_nil_r. repeat split; try lia; try contradiction.
    intros [_ [? [=]]]. }
  exists [outbound request].
  pose proof (chat_with_agent_calls request token calls) as Hc.
  destruct (chat_with_agent request token calls) as [[e|v] calls']; simpl in *;
    subst calls'; repeat split; eauto; discriminate.
Qed.

(** X4.  Whatever the agent answers, the handler makes one call; its target
    is the value of [AGENT_API_URL] ([None] when unset: nothing checks the
    configuration before the call), and its headers are exactly
    [Content-Type: application/json] and [x-api-key], the value of [API_KEY]
    ([None] when unset). *)
Theorem handler_call_shape (request : ChatRequest) (token : string)
    (calls : list UpstreamCall) :
  exists (c : UpstreamCall) (h : gmap string PyValue),
    (chat_with_agent request token calls).2 = (calls ++ [c])%list /\
    url c = match environ !! "AGENT_API_URL" with
            | Some u => PyStr u
            | None => PyNone
            end /\
    headers c = PyDict h /\
    h !! "Content-Type" = Some (PyStr "application/json") /\
    h !! "x-api-key" = Some (match environ !! "API_KEY" with
                             | Some k => PyStr k
                             | None => PyNone
                             end) /\
    dom h = list_to_set [ "Content-Type"; "x-api-key" ].
Proof.
  eexists (outbound request), _. rewrite chat_with_agent_calls.
  split; [reflexivity|]. split; [reflexivity|]. split; [reflexivity|].
  split; [reflexivity|]. split; [reflexivity|].
  rewrite !dom_insert_L, dom_empty_L. set_solver.
Qed.

(** *** Further properties of the handler's answer *)

(** X5.  The handler returns normally only in one way: the agent answered
    with a 2xx status, the body decoded to an object, the object has the
    key [response], and what is returned is [{"response": w}] for the value
    [w] bound to it. *)
Theorem chat_with_agent_success_iff (request : ChatRequest) (token : string)
    (calls calls' : list UpstreamCall) (v : PyValue) :
  chat_with_agent request token calls = (inr v, calls') <->
  calls' = (calls ++ [outbound request])%list /\
  exists r d w,
    upstream (outbound request) = inr r /\
    200 <= status_code r <= 299 /\
    Response_json r = inr (PyDict d) /\
    d !! "response" = Some w /\
    v = PyDict {[ "response" := w ]}.
Proof.
  split.
  - unfold chat_with_agent, try_except. rewrite forward_run.
    destruct (upstream (outbound request)) as [e|r] eqn:Hup;
      [destruct e; intros [=]|].
    unfold raise_for_status.
    destruct (is_success r) eqn:Hok; [|intros [=]].
    destruct (Response_json r) as [e|result] eqn:Hjson; [destruct e; intros [=]|].
    destruct result as [| | | | s | l | d]; simpl; try solve [intros [=]].
    + destruct (is_substring "response" s); intros [=].
    + destruct (existsb (py_eq_str "response") l); intros [=].
    + destruct (d !! "response") as [w|] eqn:Hw.
      * rewrite bool_decide_eq_true_2 by eauto. simpl.
        intros [= <- <-]. split; [reflexivity|].
        exists r, d, w. apply is_success_range in Hok. auto.
      * rewrite bool_decide_eq_false_2 by (intros [? ?]; discriminate). intros [=].
  - intros (-> & r & d & w & Hup & Hok & Hjson & Hw & ->).
    apply is_success_range in Hok.
    apply (chat_with_agent_relays _ _ _ _ _ _ Hup Hok Hjson Hw).
Qed.

(** X6.  When the agent answers 2xx with a body that decodes to anything
    but an object (null, a boolean, a number, a string, an array), the
    handler fails with status 500, after its one call. *)
Theorem non_object_body_is_a_500 (request : ChatRequest) (token : string)
    (calls : list UpstreamCall) (r : Response) (result : PyValue) :
  upstream (outbound request) = inr r ->
  200 <= status_code r <= 299 ->
  Response_json r = inr result ->
  (forall d, result <> PyDict d) ->
  exists detail,
    chat_with_agent request token calls =
      (inl (HTTPException 500 detail), (calls ++ [outbound request])%list).
Proof.
  intros Hup Hok Hjson Hnd. apply is_success_range in Hok.
  unfold chat_with_agent, try_except. rewrite forward_run, Hup.
  rewrite (raise_for_status_success _ Hok), Hjson.
  destruct result as [| | | | s | l | d]; simpl; eauto.
  - destruct (is_substring "response" s); simpl; eauto.
  - destruct (existsb (py_eq_str "response") l); simpl; eauto.
  - exfalso. exact (Hnd d eq_refl).
Qed.

(** X7.  When the agent answers 2xx and decoding the body raises (the body
    is not JSON), the handler fails with status 500 and the decoder's
    message as detail. *)
Theorem undecodable_body_is_a_500 (request : ChatRequest) (token : string)
    (calls : list UpstreamCall) (r : Response) (e : Exception) :
  upstream (outbound request) = inr r ->
  200 <= status_code r <= 299 ->
  Response_json r = inl e ->
  is_HTTPStatusError e = false ->
  chat_with_agent request token calls =
    (inl (HTTPException 500 (py_str e)), (calls ++ [outbound request])%list).
Proof.
  intros Hup Hok Hjson Hne. apply is_success_range in Hok.
  unfold chat_with_agent, try_except. rewrite forward_run, Hup.
  rewrite (raise_for_status_success _ Hok), Hjson.
  destruct e; simpl in Hne; try discriminate; reflexivity.
Qed.

(** X8.  Deserialisation looks at [session_id] and [message] only: any
    other member of the body changes nothing. *)
Theorem ChatRequest_validate_ignores_extra (d : gmap string PyValue)
    (k : string) (v : PyValue) :
  k <> "session_id" ->
  k <> "message" ->
  ChatRequest_validate (PyDict (<[k := v]> d)) = ChatRequest_validate (PyDict d).
Proof.
  intros Hs Hm. unfold ChatRequest_validate, validate_str.
  rewrite !lookup_insert_ne by assumption. reflexivity.
Qed.

(** *** Further properties of the streaming generator *)

(** The generator works through the lines in order: on [before ++ after]
    it first does what it does on [before], and goes on to [after] only if
    no exception ended it. *)
Lemma stream_lines_app (before after : list string) :
  stream_lines (before ++ after) =
  match ended_by (stream_lines before) with
  | None => {| yielded := yielded (stream_lines before) ++ yielded (stream_lines after);
               ended_by := ended_by (stream_lines after) |}
  | Some e => stream_lines before
  end.
Proof.
  induction before as [|line rest IH]; simpl.
  - destruct (stream_lines after); reflexivity.
  - destruct (nonempty line); [|exact IH].
    destruct (json_loads line) as [e|data].
    { destruct (is_JSONDecodeError e); [exact IH | reflexivity]. }
    destruct (py_contains "response" data) as [e|[|]]; [reflexivity| |exact IH].
    destruct (py_getitem data "response") as [e|v]; [reflexivity|].
    rewrite IH. simpl. destruct (ended_by (stream_lines rest)); reflexivity.
Qed.

(** X9.  What the generator has yielded after some lines does not depend
    on the lines that follow: the output on a prefix of the stream is a
    prefix of the output on the whole stream, and once an exception has
    ended the generator the remaining lines change nothing. *)
Theorem stream_output_is_incremental (before after : list string) :
  yielded (stream_lines before) `prefix_of` yielded (stream_lines (before ++ after)) /\
  (forall e, ended_by (stream_lines before) = Some e ->
             stream_lines (before ++ after) = stream_lines before).
Proof.
  rewrite stream_lines_app.
  destruct (ended_by (stream_lines before)) as [e|]; simpl; split.
  - exists []. rewrite app_nil_r. reflexivity.
  - reflexivity.
  - eexists. reflexivity.
  - discriminate.
Qed.

(** X10.  The generator invents nothing: every value it yields is the
    value bound to [response] in the object that some non-empty line of the
    stream decodes to. *)
Theorem stream_yields_only_response_members (lines : list string) (v : PyValue) :
  v ∈ yielded (stream_lines lines) ->
  exists line d,
    line ∈ lines /\ line <> "" /\
    json_loads line = inr (PyDict d) /\ d !! "response" = Some v.
Proof.
  induction lines as [|line rest IH]; simpl.
  - intros H. inversion H.
  - assert (Hrest : v ∈ yielded (stream_lines rest) ->
                    exists line0 d, line0 ∈ line :: rest /\ line0 <> "" /\
                      json_loads line0 = inr (PyDict d) /\ d !! "response" = Some v).
    { intros H. destruct (IH H) as (l0 & d & Hin & Hrem). exists l0, d.
      split; [right; exact Hin | exact Hrem]. }
    destruct line as [|a line'] eqn:Hline; [exact Hrest|]. rewrite <- Hline in *.
    assert (Hne : line <> "") by (rewrite Hline; discriminate).
    replace (nonempty line) with true by (rewrite Hline; reflexivity).
    destruct (json_loads line) as [e|data] eqn:Hj.
    { destruct (is_JSONDecodeError e); [exact Hrest | intros H; inversion H]. }
    destruct data as [| | | | s | l | d]; simpl; try solve [intros H; inversion H].
    + destruct (is_substring "response" s); [intros H; inversion H | exact Hrest].
    + destruct (existsb (py_eq_str "response") l); [intros H; inversion H | exact Hrest].
    + destruct (d !! "response") as [w|] eqn:Hw.
      * rewrite bool_decide_eq_true_2 by eauto. simpl.
        intros H. apply elem_of_cons in H as [->|H]; [|exact (Hrest H)].
        exists line, d. split; [left|]; auto.
      * rewrite bool_decide_eq_false_2 by (intros [? ?]; discriminate). exact Hrest.
Qed.

(** X11.  On a stream opened with a 2xx status in which every non-empty
    line is either refused by the decoder or decodes to an object, the
    generator ends normally and yields, in order, the [response] value of
    each object that has one; empty lines, refused lines and objects
    without [response] contribute nothing. *)
Theorem stream_of_objects_is_relayed (target hdrs pl : PyValue) (r : Response) :
  upstream {| url := target; json := pl; headers := hdrs |} = inr r ->
  200 <= status_code r <= 299 ->
  Forall (fun line =>
            nonempty line = true ->
            (exists e, json_loads line = inl e /\ is_JSONDecodeError e = true) \/
            (exists d, json_loads line = inr (PyDict d))) (aiter_lines r) ->
  stream_response target hdrs pl =
    {| yielded :=
         omap (fun line =>
                 if nonempty line then
                   match json_loads line with
                   | inr (PyDict d) => d !! "response"
                   | _ => None
                   end
                 else None) (aiter_lines r);
       ended_by := None |}.
Proof.
  intros Hup Hok Hlines. apply is_success_range in Hok.
  unfold stream_response. rewrite Hup, (raise_for_status_success _ Hok).
  apply stream_lines_objects. exact Hlines.
Qed.

(** X12.  The generator yields nothing unless the stream opened with a 2xx
    status: when [client.stream] raises, or the status is outside 2xx, no
    line is read. *)
Theorem stream_needs_a_2xx (target hdrs pl : PyValue) :
  yielded (stream_response target hdrs pl) <> [] ->
  exists r,
    upstream {| url := target; json := pl; headers := hdrs |} = inr r /\
    200 <= status_code r <= 299.
Proof.
  unfold stream_response, raise_for_status.
  destruct (upstream _) as [e|r]; simpl; [contradiction|].
  destruct (is_success r) eqn:Hok; simpl; [|contradiction].
  intros _. exists r. split; [reflexivity | apply is_success_range; exact Hok].
Qed.

(** X13.  A non-empty line that decodes to a JSON scalar (null, a boolean,
    a number) ends the generator with a [TypeError]: what was yielded
    before it stands, and nothing that follows it is processed. *)
Theorem scalar_chunk_stops_the_generator (before rest : list string)
    (line : string) (data : PyValue) :
  ended_by (stream_lines before) = None ->
  line <> "" ->
  json_loads line = inr data ->
  match data with
  | PyNone | PyBool _ | PyInt _ | PyFloat _ => True
  | _ => False
  end ->
  exists msg,
    stream_lines (before ++ line :: rest) =
      {| yielded := yielded (stream_lines before); ended_by := Some (TypeError msg) |}.
Proof.
  intros Hbefore Hne Hj Hscalar. rewrite stream_lines_app, Hbefore. simpl.
  destruct line as [|a line']; [contradiction|]. simpl. rewrite Hj.
  destruct data; try contradiction; simpl; rewrite app_nil_r; eauto.
Qed.

(** *** From the request as received to the response as sent *)


Lemma HTTPBearer_rejections (header : option string) (e : Exception) :
  HTTPBearer header = inl e ->
  e = not_authenticated security_errors \/ e = invalid_scheme security_errors.
Proof.
  unfold HTTPBearer.
  destruct (get_authorization_scheme_param _ header) as [sch cred].
  destruct (negb _); [intros [= <-]; auto|].
  destruct (negb _); [intros [= <-]; auto | discriminate].
Qed.




(** C3, as amended.  Take a request whose header yields no bearer
    credential, or one that is not, by exact string comparison, the expected
    token.  No upstream call is issued for it, whatever its body.  If its
    body can be read, the caller gets HTTP 401 with the body
    [{"detail": "Invalid or missing Bearer token"}] when a credential was
    presented, and otherwise the response for one of the two rejections of
    [HTTPBearer].  If its body is a text that cannot be decoded, the caller
    gets the 422 (or 400) of the body reading, which comes before the
    token. *)
Theorem unauthenticated_request_is_turned_away (raw : RawRequest)
    (calls : list UpstreamCall) :
  (forall c, HTTPBearer (raw_authorization raw) = inr c ->
             environ !! "BEARER_TOKEN" <> Some (credentials c)) ->
  (chat_route raw calls).2 = calls /\
  ((forall content e, raw_body raw = BodyJSON content -> json_loads content <> inl e) ->
   match HTTPBearer (raw_authorization raw) with
   | inr _ =>
       (chat_route raw calls).1 =
         {| http_status := 401;
            http_body := JSONBody (PyDict {[ "detail" := PyStr "Invalid or missing Bearer token" ]}) |}
   | inl e =>
       (chat_route raw calls).1 = respond (Failure e) /\
       (e = not_authenticated security_errors \/ e = invalid_scheme security_errors)
   end) /\
  (forall content e,
      raw_body raw = BodyJSON content ->
      json_loads content = inl e ->
      http_status (chat_route raw calls).1 = if is_JSONDecodeError e then 422 else 400).
Proof.
  intros Hbad.
  assert (Hauth : forall b,
             authorize {| authorization := raw_authorization raw; body := b |} =
             match HTTPBearer (raw_authorization raw) with
             | inl e => inl e
             | inr _ => inl (HTTPException 401 "Invalid or missing Bearer token")
             end).
  { intros b. unfold authorize. simpl.
    destruct (HTTPBearer (raw_authorization raw)) as [e|c] eqn:Hb; [reflexivity|].
    apply verify_token_rejects. apply Hbad. reflexivity. }
  assert (Hend : forall b,
             chat_endpoint {| authorization := raw_authorization raw; body := b |} calls =
             (Failure match HTTPBearer (raw_authorization raw) with
                      | inl e => e
                      | inr _ => HTTPException 401 "Invalid or missing Bearer token"
                      end, calls)).
  { intros b. unfold chat_endpoint. rewrite Hauth.
    destruct (HTTPBearer (raw_authorization raw)); reflexivity. }
  unfold chat_route. split; [|split].
  - destruct (raw_body raw) as [|content|content]; rewrite ?Hauth.
    + destruct (HTTPBearer (raw_authorization raw)); reflexivity.
    + destruct (json_loads content) as [e|b]; [destruct (is_JSONDecodeError e); reflexivity|].
      rewrite Hend. reflexivity.
    + destruct (HTTPBearer (raw_authorization raw)); reflexivity.
  - intros Hread.
    destruct (raw_body raw) as [|content|content] eqn:Hraw; rewrite ?Hauth.
    + destruct (HTTPBearer (raw_authorization raw)) as [e|c] eqn:Hb; simpl;
        [split; [reflexivity | exact (HTTPBearer_rejections _ _ Hb)] | reflexivity].
    + destruct (json_loads content) as [e|b] eqn:Hl; [exfalso; exact (Hread _ e eq_refl Hl)|].
      rewrite Hend.
      destruct (HTTPBearer (raw_authorization raw)) as [e|c] eqn:Hb; simpl;
        [split; [reflexivity | exact (HTTPBearer_rejections _ _ Hb)] | reflexivity].
    + destruct (HTTPBearer (raw_authorization raw)) as [e|c] eqn:Hb; simpl;
        [split; [reflexivity | exact (HTTPBearer_rejections _ _ Hb)] | reflexivity].
  - intros content e Hraw Hl. rewrite Hraw, Hl.
    destruct (is_JSONDecodeError e); reflexivity.
Qed.

End Relay.

(** ** The program on the sample data *)

#[local] Abbreviation run_chat security agent req :=
  (chat_endpoint sample_environ agent sample_loads sample_status_message security req []).

#[local] Abbreviation run_handler agent request :=
  (chat_with_agent sample_environ agent sample_loads sample_status_message request "s3cret" []).

#[local] Abbreviation sample_call request := (outbound sample_environ request).

(** Agent answers 200 with the text [{"response":"Hello!"}]: the handler
    returns [{"response": "Hello!"}]. *)
Lemma hello_is_relayed :
  run_chat fastapi_forbidden (agent_replies 200 hello_text) good_request
  = (Success (PyDict {[ "response" := PyStr "Hello!" ]}), [sample_call good_chat]).
Proof.
  apply (chat_success_relays_response sample_environ (agent_replies 200 hello_text)
           sample_loads sample_status_message fastapi_forbidden good_request
           "s3cret" good_chat
           {| status_code := 200; text := hello_text; aiter_lines := [] |}
           {[ "response" := PyStr "Hello!" ]} (PyStr "Hello!")).
  - reflexivity.
  - reflexivity.
  - reflexivity.
  - simpl. lia.
  - reflexivity.
  - reflexivity.
Defined.

(** The caller's own [user_id] and [agent_id] do not reach the payload. *)
Lemma spoofed_fields_are_dropped :
  exists p : gmap string PyValue,
    json <$> (run_chat fastapi_forbidden (agent_replies 200 hello_text) spoofing_request).2
      = [PyDict p] /\
    p !! "session_id" = Some (PyStr "abc-1") /\
    p !! "message" = Some (PyStr "Hi") /\
    p !! "user_id" = Some (PyStr "default_user") /\
    p !! "agent_id" = Some (PyStr "").
Proof.
  destruct (outbound_payload_passthrough sample_environ (agent_replies 200 hello_text)
              sample_loads sample_status_message fastapi_forbidden spoofing_request
              "s3cret" spoofing_fields "abc-1" "Hi")
    as (p & Hcalls & Hs & Hm & _ & _ & _ & Hu & Ha & _).
  - reflexivity.
  - reflexivity.
  - reflexivity.
  - reflexivity.
  - exists p. repeat split; assumption.
Defined.

(** A wrong token: 401 from [verify_token], nothing sent upstream. *)
Lemma wrong_token_is_rejected :
  exists e,
    run_chat fastapi_forbidden (agent_replies 200 hello_text) wrong_token_request
      = (Failure e, []) /\
    (forall c, HTTPBearer fastapi_forbidden (authorization wrong_token_request) = inr c ->
               e = HTTPException 401 "Invalid or missing Bearer token").
Proof.
  apply (unauthorized_short_circuits sample_environ (agent_replies 200 hello_text)
           sample_loads sample_status_message fastapi_forbidden wrong_token_request []).
  intros c Hc. vm_compute in Hc. injection Hc as <-. vm_compute. discriminate.
Defined.

(** No [Authorization] header: the request is turned away by [HTTPBearer],
    whose error is not the 401 of [verify_token], under either FastAPI. *)
Lemma missing_credential_is_not_the_401 :
  authorization anonymous_request = None /\
  run_chat fastapi_forbidden (agent_replies 200 hello_text) anonymous_request
    = (Failure (HTTPException 403 "Not authenticated"), []) /\
  run_chat fastapi_unauthorized (agent_replies 200 hello_text) anonymous_request
    = (Failure (HTTPException 401 "Not authenticated"), []) /\
  (forall security, In security [fastapi_forbidden; fastapi_unauthorized] ->
     (run_chat security (agent_replies 200 hello_text) anonymous_request).1
       <> Failure (HTTPException 401 "Invalid or missing Bearer token")).
Proof.
  repeat split; try reflexivity.
  intros security [<-|[<-|[]]]; vm_compute; discriminate.
Qed.

(** Agent answers 503 with the text [{"error":"unavailable"}]: the caller
    gets 503 and the message of the status error. *)
Lemma unavailable_is_propagated :
  run_chat fastapi_forbidden (agent_replies 503 unavailable_text) good_request
  = (Failure (HTTPException 503
                "Server error '503' for url 'https://agent.example/v3/chat'"),
     [sample_call good_chat]).
Proof.
  apply (upstream_status_error_propagates sample_environ
           (agent_replies 503 unavailable_text) sample_loads sample_status_message
           fastapi_forbidden good_request "s3cret" good_chat
           {| status_code := 503; text := unavailable_text; aiter_lines := [] |}).
  - reflexivity.
  - reflexivity.
  - reflexivity.
  - simpl. lia.
Defined.

(** C5.  Agent answers 200 with the text [{"foo":"bar"}].  The handler
    raises the 500 with detail [Invalid response format from HR agent API]
    inside its own [try], the last [except] clause catches it, and the caller
    gets a 500 whose detail is [str] of that exception, which is not the
    detail the handler wrote: the status is the one claimed, the detail is
    not. *)
Theorem missing_response_detail_is_rewrapped :
  run_chat fastapi_forbidden (agent_replies 200 foo_text) good_request
    = (Failure (HTTPException 500 "500: Invalid response format from HR agent API"),
       [sample_call good_chat])
  /\ (run_chat fastapi_forbidden (agent_replies 200 foo_text) good_request).1
       <> Failure (HTTPException 500 "Invalid response format from HR agent API").
Proof.
  assert (H : run_chat fastapi_forbidden (agent_replies 200 foo_text) good_request
              = (Failure (HTTPException 500 "500: Invalid response format from HR agent API"),
                 [sample_call good_chat])).
  { rewrite (chat_endpoint_handler _ _ _ _ _ _ "s3cret" good_chat) by reflexivity.
    rewrite (chat_with_agent_missing_field _ _ _ _ _ _ _
               {| status_code := 200; text := foo_text; aiter_lines := [] |}
               {[ "foo" := PyStr "bar" ]}) by reflexivity.
    reflexivity. }
  split; [exact H|]. rewrite H. simpl. discriminate.
Qed.


(** Empty [session_id] and [message] pass deserialisation, and the handler
    sends them upstream. *)
Lemma empty_fields_are_accepted :
  ChatRequest_validate (body empty_fields_request)
    = inr {| session_id := ""; message := "" |} /\
  run_chat fastapi_forbidden (agent_replies 200 hello_text) empty_fields_request
    = (Success (PyDict {[ "response" := PyStr "Hello!" ]}),
       [sample_call {| session_id := ""; message := "" |}]) /\
  (forall errors,
      (run_chat fastapi_forbidden (agent_replies 200 hello_text) empty_fields_request).1
        <> Unprocessable errors).
Proof.
  split; [reflexivity|]. split; [reflexivity|].
  intros errors. vm_compute. discriminate.
Qed.

(** The handler body runs on the empty strings. *)
Lemma empty_fields_reach_the_handler :
  run_chat fastapi_forbidden (agent_replies 200 hello_text) empty_fields_request
  = match run_handler (agent_replies 200 hello_text) {| session_id := ""; message := "" |} with
    | (inl e, calls') => (Failure e, calls')
    | (inr content, calls') => (Success content, calls')
    end.
Proof.
  apply (proj1 (chat_request_validation sample_environ (agent_replies 200 hello_text)
                  sample_loads sample_status_message fastapi_forbidden
                  empty_fields_request "s3cret" [] eq_refl)
           (chat_fields "" "") "" "").
  - reflexivity.
  - reflexivity.
  - reflexivity.
Defined.

(** C8.  The stream delivers the lines [{"response":"a"}], [null],
    [{"response":"b"}].  The second line decodes (to [None]) and has no
    [response] field, but it is not skipped: the membership test raises a
    [TypeError], which only [JSONDecodeError] would have been caught, and the
    generator ends there, having yielded [a] and never [b]. *)
Theorem scalar_chunk_ends_the_stream :
  stream_response (agent_streams [chunk_a; "null"; chunk_b]) sample_loads
    sample_status_message (PyStr "https://agent.example/v3/stream")
    (request_headers sample_environ) (PyDict (payload sample_environ good_chat))
  = {| yielded := [PyStr "a"];
       ended_by := Some (TypeError "argument of type 'NoneType' is not iterable") |}.
Proof. vm_compute. reflexivity. Qed.

(** Without [BEARER_TOKEN] in the environment even a plausible token is
    turned away. *)
Lemma tokenless_environment_rejects :
  verify_token tokenless_environ {| scheme := "Bearer"; credentials := "s3cret" |}
  = inl (HTTPException 401 "Invalid or missing Bearer token").
Proof.
  apply (unset_token_rejects_everyone tokenless_environ
           {| scheme := "Bearer"; credentials := "s3cret" |}).
  reflexivity.
Defined.

(** A [response] that is itself an object is relayed as it is. *)
Lemma nested_response_is_relayed :
  run_handler (agent_replies 200 nested_text) good_chat
  = (inr (PyDict {[ "response" := PyDict {[ "n" := PyInt 1 ]} ]}), [sample_call good_chat]).
Proof.
  apply (chat_relays_any_value sample_environ (agent_replies 200 nested_text)
           sample_loads sample_status_message good_chat "s3cret" []
           {| status_code := 200; text := nested_text; aiter_lines := [] |}
           ∅ (PyDict {[ "n" := PyInt 1 ]})).
  - reflexivity.
  - simpl. lia.
  - reflexivity.
Defined.

(** ** Further properties, and the program on further sample data *)

(** X14.  What is sent upstream (target, headers, payload) depends on the
    environment through [USER_ID], [AGENT_ID], [AGENT_API_URL] and [API_KEY]
    only: setting any other variable, [BEARER_TOKEN] included, changes
    nothing of the call. *)
Theorem upstream_call_reads_four_variables (env : gmap string string)
    (k v : string) (request : ChatRequest) :
  k <> "USER_ID" ->
  k <> "AGENT_ID" ->
  k <> "AGENT_API_URL" ->
  k <> "API_KEY" ->
  outbound (<[k := v]> env) request = outbound env request.
Proof.
  intros Hu Ha Hurl Hkey.
  unfold outbound, payload, request_headers, getenv, getenv_default.
  rewrite !lookup_insert_ne by assumption. reflexivity.
Qed.

(** Changing the bearer token leaves the upstream call as it was. *)
Lemma bearer_token_stays_home :
  outbound (<["BEARER_TOKEN" := "rotated"]> sample_environ) good_chat
  = sample_call good_chat.
Proof.
  apply (upstream_call_reads_four_variables sample_environ "BEARER_TOKEN" "rotated" good_chat);
    discriminate.
Defined.

(** The sample request authenticates, also where credentials are stripped. *)
Lemma good_request_authenticates :
  authorize sample_environ fastapi_unauthorized good_request = inr "s3cret".
Proof.
  apply (bearer_header_authenticates sample_environ fastapi_unauthorized good_request "s3cret").
  - reflexivity.
  - discriminate.
  - reflexivity.
  - reflexivity.
Defined.

(** Agent answers 200 with the text [null]: a 500. *)
Lemma null_body_is_a_500 :
  exists detail,
    run_handler (agent_replies 200 "null") good_chat
    = (inl (HTTPException 500 detail), [sample_call good_chat]).
Proof.
  apply (non_object_body_is_a_500 sample_environ (agent_replies 200 "null")
           sample_loads sample_status_message good_chat "s3cret" []
           {| status_code := 200; text := "null"; aiter_lines := [] |} PyNone).
  - reflexivity.
  - simpl. lia.
  - reflexivity.
  - intros d. discriminate.
Defined.

(** Agent answers 200 with a body that is not JSON: a 500 carrying the
    decoder's message. *)
Lemma html_body_is_a_500 :
  run_handler (agent_replies 200 "<html>") good_chat
  = (inl (HTTPException 500 "Expecting value: line 1 column 1 (char 0)"),
     [sample_call good_chat]).
Proof.
  apply (undecodable_body_is_a_500 sample_environ (agent_replies 200 "<html>")
           sample_loads sample_status_message good_chat "s3cret" []
           {| status_code := 200; text := "<html>"; aiter_lines := [] |}
           (JSONDecodeError "Expecting value: line 1 column 1 (char 0)")).
  - reflexivity.
  - simpl. lia.
  - reflexivity.
  - reflexivity.
Defined.

(** A [user_id] in the body is not seen by deserialisation. *)
Lemma user_id_member_is_ignored :
  ChatRequest_validate (PyDict (<["user_id" := PyStr "mallory"]> (chat_fields "abc-1" "Hi")))
  = ChatRequest_validate (PyDict (chat_fields "abc-1" "Hi")).
Proof.
  apply (ChatRequest_validate_ignores_extra (chat_fields "abc-1" "Hi") "user_id"
           (PyStr "mallory")); discriminate.
Defined.

(** The value yielded for the line [{"response":"a"}] is its [response]. *)
Lemma yielded_a_comes_from_chunk_a :
  exists line d,
    line ∈ [chunk_a; "null"] /\ line <> "" /\
    sample_loads line = inr (PyDict d) /\ d !! "response" = Some (PyStr "a").
Proof.
  apply (stream_yields_only_response_members sample_loads [chunk_a; "null"] (PyStr "a")).
  vm_compute. left.
Defined.

(** Objects, an empty line, a line that is not JSON and an object without
    [response]: the two [response] values come out, in order. *)
Lemma mixed_object_stream_is_relayed :
  stream_response (agent_streams [chunk_a; ""; "<html>"; foo_text; chunk_b]) sample_loads
    sample_status_message PyNone PyNone PyNone
  = {| yielded := [PyStr "a"; PyStr "b"]; ended_by := None |}.
Proof.
  apply (stream_of_objects_is_relayed (agent_streams [chunk_a; ""; "<html>"; foo_text; chunk_b])
           sample_loads sample_status_message PyNone PyNone PyNone
           {| status_code := 200; text := "";
              aiter_lines := [chunk_a; ""; "<html>"; foo_text; chunk_b] |}).
  - reflexivity.
  - simpl. lia.
  - simpl. repeat apply List.Forall_cons; try apply List.Forall_nil; intros Hne.
    + right. exists {[ "response" := PyStr "a" ]}. reflexivity.
    + discriminate Hne.
    + left. eexists. split; reflexivity.
    + right. exists {[ "foo" := PyStr "bar" ]}. reflexivity.
    + right. exists {[ "response" := PyStr "b" ]}. reflexivity.
Defined.

(** A stream that yields something was opened with a 2xx status. *)
Lemma yielding_stream_was_opened :
  exists r,
    agent_streams [chunk_a] {| url := PyNone; json := PyNone; headers := PyNone |} = inr r /\
    200 <= status_code r <= 299.
Proof.
  apply (stream_needs_a_2xx (agent_streams [chunk_a]) sample_loads sample_status_message
           PyNone PyNone PyNone).
  vm_compute. discriminate.
Defined.

(** After [{"response":"a"}], the line [null] ends the generator; the line
    [{"response":"b"}] behind it is lost. *)
Lemma null_chunk_stops_after_a :
  exists msg,
    stream_lines sample_loads ([chunk_a] ++ "null" :: [chunk_b])
    = {| yielded := yielded (stream_lines sample_loads [chunk_a]);
         ended_by := Some (TypeError msg) |}.
Proof.
  apply (scalar_chunk_stops_the_generator sample_loads [chunk_a] [chunk_b] "null" PyNone).
  - reflexivity.
  - discriminate.
  - reflexivity.
  - exact I.
Defined.

(** ** The route on the sample data, from request to response *)

#[local] Abbreviation run_route security agent raw :=
  (chat_route sample_environ agent sample_loads sample_status_message security raw []).

#[local] Abbreviation detail_body text := (JSONBody (PyDict {[ "detail" := PyStr text ]})).





(** A wrong token with a readable body: HTTP 401 with the detail of
    [verify_token], and nothing sent upstream. *)
Lemma wrong_token_gets_the_401 :
  run_route fastapi_forbidden (agent_replies 200 hello_text) wrong_token_raw
  = ({| http_status := 401; http_body := detail_body "Invalid or missing Bearer token" |},
     []).
Proof.
  destruct (unauthenticated_request_is_turned_away sample_environ
              (agent_replies 200 hello_text) sample_loads sample_status_message
              fastapi_forbidden wrong_token_raw [])
    as (Hcalls & Hresp & _).
  - intros c Hc. vm_compute in Hc. injection Hc as <-. vm_compute. discriminate.
  - apply injective_projections; [|exact Hcalls].
    apply Hresp. intros content e [= <-]. vm_compute. discriminate.
Defined.

(** Two requests that do not authenticate and do not get the 401 of
    [verify_token]: one without an [Authorization] header, which gets the
    rejection of [HTTPBearer] under either FastAPI, and one with a wrong
    token and a body that is not JSON, which gets the 422 of the body
    reading. *)
Lemma missing_or_garbled_is_not_the_401 :
  run_route fastapi_forbidden (agent_replies 200 hello_text) anonymous_raw
    = ({| http_status := 403; http_body := detail_body "Not authenticated" |}, []) /\
  run_route fastapi_unauthorized (agent_replies 200 hello_text) anonymous_raw
    = ({| http_status := 401; http_body := detail_body "Not authenticated" |}, []) /\
  run_route fastapi_forbidden (agent_replies 200 hello_text) garbled_wrong_token_raw
    = ({| http_status := 422;
          http_body := ValidationReport [ {| loc := "body"; kind := "json_invalid" |} ] |},
       []) /\
  (forall security, In security [fastapi_forbidden; fastapi_unauthorized] ->
     (run_route security (agent_replies 200 hello_text) anonymous_raw).1
       <> {| http_status := 401;
             http_body := detail_body "Invalid or missing Bearer token" |}) /\
  (forall security, In security [fastapi_forbidden; fastapi_unauthorized] ->
     http_status (run_route security (agent_replies 200 hello_text) garbled_wrong_token_raw).1
       <> 401).
Proof.
  repeat split; try reflexivity.
  - intros security [<-|[<-|[]]]; vm_compute; discriminate.
  - intros security [<-|[<-|[]]]; vm_compute; discriminate.
Qed.
